(** * Venspace landing page: the lead-capture form of [src/app/page.tsx]

    A shallow embedding of the form schema ([formSchema], zod), of the
    phone input normaliser, and of the two submission handlers of the
    repository: the network one of [src/app/page.tsx] and the stub of
    [src/unnamed/part_000].

    Strings are modelled as Rocq [string]s over ASCII characters; JS
    [.length] is then [String.length].  The empty string is written
    [EmptyString]. *)

From Stdlib Require Import String Ascii List Bool Arith Lia.
Import ListNotations.
Open Scope string_scope.
Open Scope nat_scope.

(* ------------------------------------------------------------------ *)
(** ** Form values *)

(** [z.infer<typeof formSchema>] *)
Record FormValues := mkFormValues {
  email : string;
  phone : string;
  description : string
}.

(** [useForm({ defaultValues: { email: "", phone: "", description: "" } })] *)
Definition defaultValues : FormValues :=
  mkFormValues EmptyString EmptyString EmptyString.

(** The argument of [form.reset] in [onSubmit] (both handlers):
    [{ email: "", phone: "", description: "Select" }]. *)
Definition resetValues : FormValues :=
  mkFormValues EmptyString EmptyString "Select".

(** The [value]s of the three [SelectItem]s of the description [Select]. *)
Definition selectItems : list string :=
  [ "I own a space to share";
    "I am hunting for the perfect space";
    "Both! I own and I am looking " ].

(* ------------------------------------------------------------------ *)
(** ** Character classes *)

(** JS [\d] (no [u] flag) and [[0-9]]. *)
Definition is_digit (c : ascii) : bool :=
  (48 <=? nat_of_ascii c) && (nat_of_ascii c <=? 57).

(** JS [\s], restricted to ASCII: space, tab, LF, VT, FF, CR. *)
Definition is_space (c : ascii) : bool :=
  let n := nat_of_ascii c in
  (n =? 32) || ((9 <=? n) && (n <=? 13)).

(** The regex class [[-\s./0-9]]. *)
Definition is_tail_char (c : ascii) : bool :=
  Ascii.eqb c "-"%char || is_space c || Ascii.eqb c "."%char || Ascii.eqb c "/"%char
  || is_digit c.

(* ------------------------------------------------------------------ *)
(** ** Phone input normaliser

    [e.target.value.replace(/[^\d+-]/g, "")]: every character outside the
    class [[\d+-]] (digit, ['+'], ['-']) is removed. *)

Definition keep_phone_char (c : ascii) : bool :=
  is_digit c || Ascii.eqb c "+"%char || Ascii.eqb c "-"%char.

Fixpoint normalizePhone (s : string) : string :=
  match s with
  | EmptyString => EmptyString
  | String c s' =>
      if keep_phone_char c then String c (normalizePhone s')
      else normalizePhone s'
  end.

Fixpoint count_digits (s : string) : nat :=
  match s with
  | EmptyString => 0
  | String c s' => (if is_digit c then 1 else 0) + count_digits s'
  end.

(* ------------------------------------------------------------------ *)
(** ** The phone regex [/^[+]?[(]?[0-9]{1,4}[)]?[-\s./0-9]*$/]

    A backtracking matcher in continuation-passing style: each piece
    receives the rest of the pattern as a continuation [k] and tries its
    alternatives (greedy first) with [||]. *)

(** [[x]?] *)
Definition re_opt (x : ascii) (k : string -> bool) (s : string) : bool :=
  match s with
  | String c s' => (Ascii.eqb c x && k s') || k s
  | EmptyString => k s
  end.

(** [p{0,n}] *)
Fixpoint re_upto (n : nat) (p : ascii -> bool) (k : string -> bool)
    (s : string) : bool :=
  match n with
  | 0 => k s
  | S n' =>
      match s with
      | String c s' => (p c && re_upto n' p k s') || k s
      | EmptyString => k s
      end
  end.

(** [p{1,n}] *)
Definition re_range1 (n : nat) (p : ascii -> bool) (k : string -> bool)
    (s : string) : bool :=
  match s with
  | String c s' => p c && re_upto (n - 1) p k s'
  | EmptyString => false
  end.

(** [p*$]: a star at the end of the anchored pattern. *)
Fixpoint re_star_end (p : ascii -> bool) (s : string) : bool :=
  match s with
  | EmptyString => true
  | String c s' => p c && re_star_end p s'
  end.

Definition phoneRegex (s : string) : bool :=
  re_opt "+"%char
    (re_opt "("%char
       (re_range1 4 is_digit
          (re_opt ")"%char (re_star_end is_tail_char)))) s.

(* ------------------------------------------------------------------ *)
(** ** The schema [formSchema]

    Zod runs every check of a [z.string()] and collects one issue per
    failing check, in declaration order.  [zodResolver] (default
    [criteriaMode: "firstError"]) shows the first issue of each field. *)

Definition msg_email := "Please enter a valid email address.".
Definition msg_phone_short := "Phone number must be at least 10 digits".
Definition msg_phone_long := "Phone number must be at most 15 digits".
Definition msg_phone_invalid := "Please enter a valid phone number".
Definition msg_description := "Please select what best describes you".

(** [z.string().min(10, ..).max(15, ..).regex(.., ..)] *)
Definition phoneIssues (s : string) : list string :=
  (if String.length s <? 10 then [msg_phone_short] else [])
  ++ (if 15 <? String.length s then [msg_phone_long] else [])
  ++ (if phoneRegex s then [] else [msg_phone_invalid]).

(** [z.string().min(1, ..)] *)
Definition descriptionIssues (s : string) : list string :=
  if String.length s <? 1 then [msg_description] else [].

(** The message the form shows under a field. *)
Definition fieldError (issues : list string) : option string :=
  hd_error issues.

Definition all_digits (s : string) : bool := re_star_end is_digit s.

(* ------------------------------------------------------------------ *)
(** ** The outbound request *)

(** A query parameter value.  [QJson o] stands for
    [encodeURIComponent(JSON.stringify(o))] of the object [o], given as its
    list of (key, value) entries in insertion order. *)
Inductive QueryValue :=
| QStr (v : string)
| QJson (o : list (string * string)).

Record Request := mkRequest {
  req_url : string;
  req_query : list (string * QueryValue);
  req_method : string;
  req_headers : list (string * string);
  req_mode : string
}.

(** What [process.env] yields for the two variables the handler reads. *)
Record Env := mkEnv {
  NEXT_PUBLIC_ZOHO_LIST_KEY : option string;
  ZOHO_OAUTH_TOKEN : option string
}.

(** JS truthiness of a possibly undefined string. *)
Definition truthy (v : option string) : bool :=
  match v with
  | Some s => negb (String.eqb s EmptyString)
  | None => false
  end.

(** Template literal [`${v}`] of a possibly undefined string. *)
Definition template (v : option string) : string :=
  match v with
  | Some s => s
  | None => "undefined"
  end.

(** The [contactInfo] object: [...(cond && { k: v })] adds [k] only when
    [cond] is truthy. *)
Definition contactInfo (values : FormValues) : list (string * string) :=
  [("Contact Email", email values)]
  ++ (if truthy (Some (phone values)) then [("Phone", phone values)] else [])
  ++ (if negb (String.eqb (description values) "Select")
      then [("Description", description values)] else []).

Definition headers (env : Env) : list (string * string) :=
  [("Content-Type", "application/json")]
  ++ (if truthy (ZOHO_OAUTH_TOKEN env)
      then [("Authorization", "Zoho-oauthtoken " ++ template (ZOHO_OAUTH_TOKEN env))]
      else []).

Definition submitRequest (env : Env) (values : FormValues) : Request :=
  mkRequest
    "https://campaigns.zoho.com/api/v1.1/json/listsubscribe"
    [("resfmt", QStr "JSON");
     ("listkey", QStr (template (NEXT_PUBLIC_ZOHO_LIST_KEY env)));
     ("contactinfo", QJson (contactInfo values));
     ("source", QStr "WebsiteForm")]
    "POST"
    (headers env)
    "cors".

Fixpoint header_lookup (k : string) (hs : list (string * string)) : option string :=
  match hs with
  | [] => None
  | (k', v) :: hs' => if String.eqb k k' then Some v else header_lookup k hs'
  end.

(* ------------------------------------------------------------------ *)
(** ** What the endpoint answers *)

(** The value [await response.json()] resolves to. *)
Inductive JsonBody :=
| JNull                                            (** [null] *)
| JPrim                                            (** a string, number or boolean *)
| JObj (status : option string) (message : option string).

(** The outcome of [await response.json()]: the parsed body, or the
    [SyntaxError] [JSON.parse] raises, with its message. *)
Inductive JsonResult :=
| JsonOk (b : JsonBody)
| JsonSyntaxError (msg : string).

Record Response := mkResponse {
  ok : bool;
  json : JsonResult
}.

Inductive FetchOutcome :=
| FetchRejected (reason : string)   (** network error: [fetch] rejects *)
| FetchResolved (r : Response).

(* ------------------------------------------------------------------ *)
(** ** Component state and the handler monad *)

Record St := mkSt {
  loading : bool;
  showSuccess : bool;
  form_values : FormValues;
  alerts : list string;       (** the [alert] calls, oldest first *)
  requests : list Request     (** the [fetch] calls, oldest first *)
}.

(** A thrown JS exception carries its [message]. *)
Inductive Res (A : Type) :=
| Ok (a : A)
| Thrown (msg : string).
Arguments Ok {A} a.
Arguments Thrown {A} msg.

Definition M (A : Type) := St -> Res A * St.

Definition ret {A} (a : A) : M A := fun st => (Ok a, st).
Definition bind {A B} (m : M A) (f : A -> M B) : M B :=
  fun st => match m st with
            | (Ok a, st') => f a st'
            | (Thrown e, st') => (Thrown e, st')
            end.
Definition throw {A} (msg : string) : M A := fun st => (Thrown msg, st).

Notation "x <- m ;; k" := (bind m (fun x => k))
  (at level 61, m at next level, right associativity).
Notation "m ;; k" := (bind m (fun _ => k)) (at level 61, right associativity).

(** [try { body } catch (e) { handler(e.message) } finally { fin }] *)
Definition try_catch_finally (body : M unit) (handler : string -> M unit)
    (fin : M unit) : M unit :=
  fun st =>
    let '(r, st1) := body st in
    let '(r2, st2) := match r with
                      | Ok _ => (Ok tt, st1)
                      | Thrown e => handler e st1
                      end in
    match fin st2 with
    | (Ok _, st3) => (r2, st3)
    | (Thrown e, st3) => (Thrown e, st3)
    end.

Definition setLoading (b : bool) : M unit :=
  fun st => (Ok tt, mkSt b (showSuccess st) (form_values st) (alerts st) (requests st)).
Definition setShowSuccess (b : bool) : M unit :=
  fun st => (Ok tt, mkSt (loading st) b (form_values st) (alerts st) (requests st)).
Definition form_reset (v : FormValues) : M unit :=
  fun st => (Ok tt, mkSt (loading st) (showSuccess st) v (alerts st) (requests st)).
Definition alert (msg : string) : M unit :=
  fun st => (Ok tt, mkSt (loading st) (showSuccess st) (form_values st)
                         (alerts st ++ [msg]) (requests st)).

(** [await fetch(req)]: records the call; the endpoint's answer is [answer]. *)
Definition fetch (answer : FetchOutcome) (req : Request) : M Response :=
  fun st =>
    let st' := mkSt (loading st) (showSuccess st) (form_values st) (alerts st)
                    (requests st ++ [req]) in
    match answer with
    | FetchRejected e => (Thrown e, st')
    | FetchResolved r => (Ok r, st')
    end.

(** The [TypeError] of reading property [p] of [null]. *)
Definition null_property_error (p : string) : string :=
  "Cannot read properties of null (reading '" ++ p ++ "')".

(** [await response.json()] *)
Definition response_json (r : Response) : M JsonBody :=
  match json r with
  | JsonOk b => ret b
  | JsonSyntaxError e => throw e
  end.

(** [responseData.status] and [responseData.message]; reading a property of
    [null] throws a [TypeError]. *)
Definition get_status (b : JsonBody) : M (option string) :=
  match b with
  | JNull => throw (null_property_error "status")
  | JPrim => ret None
  | JObj s _ => ret s
  end.
Definition get_message (b : JsonBody) : M (option string) :=
  match b with
  | JNull => throw (null_property_error "message")
  | JPrim => ret None
  | JObj _ m => ret m
  end.

(** [x === 'error'] on a possibly undefined string. *)
Definition is_error_status (s : option string) : bool :=
  match s with
  | Some v => String.eqb v "error"
  | None => false
  end.

(** [responseData.message || 'Subscription failed'] *)
Definition or_default (m : option string) : string :=
  if truthy m then template m else "Subscription failed".

(** [onSubmit] of [src/app/page.tsx]. *)
Definition onSubmit (env : Env) (answer : FetchOutcome) (values : FormValues) : M unit :=
  try_catch_finally
    (setLoading true ;;
     response <- fetch answer (submitRequest env values) ;;
     responseData <- response_json response ;;
     failed <- (if negb (ok response) then ret true
                else st <- get_status responseData ;; ret (is_error_status st)) ;;
     if failed then
       m <- get_message responseData ;;
       throw (or_default m)
     else
       setShowSuccess true ;;
       form_reset resetValues)
    (fun e => alert ("Subscription failed: " ++ e))
    (setLoading false).

(** [onSubmit] of [src/unnamed/part_000]: the stub. *)
Definition onSubmit_stub (values : FormValues) : M unit :=
  setShowSuccess true ;;
  setLoading true ;;
  form_reset resetValues.

Definition exec {A} (m : M A) (st : St) : St := snd (m st).

(* ------------------------------------------------------------------ *)
(** ** The component of [src/unnamed/part_000] as a state machine

    The events a user can cause: typing into a field (the phone input
    stores the normalised text), choosing an item of the [Select], and
    pressing the submit button.  [form.handleSubmit(onSubmit)] validates
    the whole form and calls [onSubmit] only when it is valid; the button
    is [disabled={loading}].  The email check of zod
    ([z.string().email()]) is kept abstract as [email_ok]. *)

Section StubComponent.

Variable email_ok : string -> bool.

Definition no_issues (issues : list string) : bool :=
  match issues with [] => true | _ => false end.

Definition formValid (v : FormValues) : bool :=
  email_ok (email v) && no_issues (phoneIssues (phone v))
  && no_issues (descriptionIssues (description v)).

Inductive Event :=
| EditEmail (s : string)
| EditPhone (s : string)
| SelectDescription (s : string)
| ClickSubmit.

Definition submit_disabled (st : St) : bool := loading st.

Definition set_values (v : FormValues) (st : St) : St :=
  mkSt (loading st) (showSuccess st) v (alerts st) (requests st).

Definition step_stub (ev : Event) (st : St) : St :=
  let v := form_values st in
  match ev with
  | EditEmail s => set_values (mkFormValues s (phone v) (description v)) st
  | EditPhone s =>
      set_values (mkFormValues (email v) (normalizePhone s) (description v)) st
  | SelectDescription s => set_values (mkFormValues (email v) (phone v) s) st
  | ClickSubmit =>
      if submit_disabled st then st
      else if formValid v then exec (onSubmit_stub v) st
      else st
  end.

Fixpoint run_stub (evs : list Event) (st : St) : St :=
  match evs with
  | [] => st
  | ev :: evs' => run_stub evs' (step_stub ev st)
  end.

End StubComponent.

(* ------------------------------------------------------------------ *)
(** ** Sample inputs *)

Definition initialState : St := mkSt false false defaultValues [] [].

Definition exampleValues : FormValues :=
  mkFormValues "a@b.com" "1234567890" "I own a space to share".

Definition exampleEnv : Env := mkEnv (Some "list-key") None.

Definition answerSuccess : FetchOutcome :=
  FetchResolved (mkResponse true (JsonOk (JObj (Some "success") None))).

Definition answerNotOk : FetchOutcome :=
  FetchResolved (mkResponse false (JsonOk (JObj (Some "error") (Some "Invalid list")))).

(** A response the endpoint answers for a successful subscription. *)
Definition success_answer (a : FetchOutcome) : bool :=
  match a with
  | FetchResolved r =>
      ok r && match json r with
              | JsonOk (JObj s _) => negb (is_error_status s)
              | _ => false
              end
  | FetchRejected _ => false
  end.

(** A non-OK status, or an OK one whose body says [status: 'error']. *)
Definition error_answer (a : FetchOutcome) : bool :=
  match a with
  | FetchResolved r =>
      negb (ok r) || match json r with
                     | JsonOk (JObj s _) => is_error_status s
                     | _ => false
                     end
  | FetchRejected _ => false
  end.

Example phoneRegex_samples :
  map phoneRegex ["1234567890"; "+(234) 567-8901"; "(12345)67"; "abc"; EmptyString;
                  "123-456-78"; "+1)2"]
  = [true; true; false; false; false; true; true].
Proof. reflexivity. Qed.

Example normalizePhone_sample :
  normalizePhone "+1 (234) 567.89-01" = "+123456789-01".
Proof. reflexivity. Qed.

Example onSubmit_success_sample :
  exec (onSubmit exampleEnv answerSuccess exampleValues)
       (set_values exampleValues initialState)
  = mkSt false true resetValues [] [submitRequest exampleEnv exampleValues].
Proof. reflexivity. Qed.

Example onSubmit_notok_sample :
  exec (onSubmit exampleEnv answerNotOk exampleValues)
       (set_values exampleValues initialState)
  = mkSt false false exampleValues ["Subscription failed: Invalid list"]
         [submitRequest exampleEnv exampleValues].
Proof. reflexivity. Qed.

(* ------------------------------------------------------------------ *)
(** ** Lemmas about the handler *)

Lemma try_finally_loading body handler st :
  (forall e st0, fst (handler e st0) = Ok tt) ->
  fst (try_catch_finally body handler (setLoading false) st) = Ok tt
  /\ loading (snd (try_catch_finally body handler (setLoading false) st)) = false.
Proof.
  intros Hh. unfold try_catch_finally.
  destruct (body st) as [r st1].
  destruct r as [[]|e]; simpl; [split; reflexivity|].
  specialize (Hh e st1). destruct (handler e st1) as [r2 st2]; simpl in *.
  subst r2. split; reflexivity.
Qed.

Lemma onSubmit_finishes env a v st :
  fst (onSubmit env a v st) = Ok tt
  /\ loading (exec (onSubmit env a v) st) = false.
Proof.
  apply try_finally_loading. intros e st0. reflexivity.
Qed.

Lemma onSubmit_requests env a v st :
  requests (exec (onSubmit env a v) st) = (requests st ++ [submitRequest env v])%list.
Proof.
  unfold exec, onSubmit, try_catch_finally, bind, setLoading, fetch.
  destruct a as [e|[okr [b|jm]]]; simpl; [reflexivity| |reflexivity].
  destruct okr, b as [| |s m]; simpl; try reflexivity.
  destruct (is_error_status s); reflexivity.
Qed.

(* ------------------------------------------------------------------ *)
(** ** Claims about the submission handler of [src/app/page.tsx] *)

(** C1: for every answer that reports success, [onSubmit] sets
    [showSuccess], leaves [loading] false, raises no alert and issued
    exactly one request, but it resets the form to [resetValues], whose
    description ["Select"] is not the page-load default [""] of
    [defaultValues]. *)
Theorem C1_success_reset_not_default (env : Env) (a : FetchOutcome) (v : FormValues)
    (st : St) :
  success_answer a = true ->
  let st' := exec (onSubmit env a v) st in
  showSuccess st' = true /\ loading st' = false /\ alerts st' = alerts st
  /\ requests st' = (requests st ++ [submitRequest env v])%list
  /\ form_values st' = resetValues
  /\ description (form_values st') = "Select"
  /\ form_values st' <> defaultValues.
Proof.
  intros Hs.
  destruct a as [e|[okr [b|jm]]]; simpl in Hs; try discriminate.
  - destruct okr; [|discriminate].
    destruct b as [| |s m]; try discriminate.
    apply negb_true_iff in Hs.
    unfold exec, onSubmit, try_catch_finally, bind; simpl.
    rewrite Hs. simpl. repeat split; try reflexivity. discriminate.
  - destruct okr; discriminate.
Qed.

Lemma C1_success_reset_not_default_witness :
  success_answer answerSuccess = true
  /\ form_values (exec (onSubmit exampleEnv answerSuccess exampleValues)
                       (set_values exampleValues initialState)) <> defaultValues.
Proof.
  split; [reflexivity|].
  apply (C1_success_reset_not_default exampleEnv answerSuccess exampleValues
           (set_values exampleValues initialState)).
  reflexivity.
Defined.

(** C5: the network [onSubmit] of [src/app/page.tsx] leaves [loading]
    false whatever the endpoint answers (success, error status, error
    body, a body that is not JSON, or a rejected [fetch]), while the stub
    [onSubmit] of [src/unnamed/part_000], whose submissions always
    succeed, leaves it true. *)
Theorem C5_loading_after_submit (env : Env) (a : FetchOutcome) (v : FormValues)
    (st : St) :
  loading (exec (onSubmit env a v) st) = false
  /\ loading (exec (onSubmit_stub v) st) = true.
Proof.
  split; [apply onSubmit_finishes|reflexivity].
Qed.

(** C6: on a non-OK status, or an OK one whose body has
    [status: 'error'], [onSubmit] raises one alert
    ["Subscription failed: " + message], leaves the three fields and
    [showSuccess] as they were, and leaves [loading] false. *)
Theorem C6_error_keeps_fields (env : Env) (a : FetchOutcome) (v : FormValues) (st : St) :
  error_answer a = true ->
  let st' := exec (onSubmit env a v) st in
  form_values st' = form_values st /\ showSuccess st' = showSuccess st
  /\ loading st' = false
  /\ exists m, alerts st' = (alerts st ++ [("Subscription failed: " ++ m)%string])%list.
Proof.
  intros He. cbv zeta.
  destruct a as [e|[okr [b|jm]]]; simpl in He; try discriminate.
  - destruct okr; simpl in He.
    + destruct b as [| |s m]; try discriminate.
      destruct s as [s|]; [|discriminate].
      apply String.eqb_eq in He. subst s.
      repeat split; try reflexivity. eexists; reflexivity.
    + destruct b as [| |s m]; repeat split; try reflexivity;
        eexists; reflexivity.
  - destruct okr; simpl in He; try discriminate.
    repeat split; try reflexivity. eexists; reflexivity.
Qed.

Lemma C6_error_keeps_fields_witness :
  error_answer answerNotOk = true
  /\ form_values (exec (onSubmit exampleEnv answerNotOk exampleValues)
                       (set_values exampleValues initialState)) = exampleValues.
Proof.
  split; [reflexivity|].
  apply (C6_error_keeps_fields exampleEnv answerNotOk exampleValues
           (set_values exampleValues initialState)).
  reflexivity.
Defined.

(** C8: every call of [onSubmit] issues exactly one request, whatever the
    environment; its [Authorization] header is present exactly when
    [process.env.ZOHO_OAUTH_TOKEN] is a non-empty string. *)
Theorem C8_auth_header_iff_token (env : Env) (a : FetchOutcome) (v : FormValues) (st : St) :
  exists q, requests (exec (onSubmit env a v) st) = (requests st ++ [q])%list
  /\ (header_lookup "Authorization" (req_headers q) <> None
      <-> exists t, ZOHO_OAUTH_TOKEN env = Some t /\ t <> EmptyString).
Proof.
  exists (submitRequest env v). split; [apply onSubmit_requests|].
  unfold submitRequest, headers, truthy, template; simpl.
  destruct (ZOHO_OAUTH_TOKEN env) as [t|]; simpl.
  - destruct (String.eqb_spec t EmptyString) as [->|Hne]; simpl.
    + split; [intros H; contradiction H; reflexivity|].
      intros [t' [Ht' Hne]]. injection Ht' as <-. contradiction.
    + split; [intros _; exists t; split; [reflexivity|exact Hne]|].
      intros _; discriminate.
  - split; [intros H; contradiction H; reflexivity|].
    intros [t' [Ht' _]]; discriminate.
Qed.

(* ------------------------------------------------------------------ *)
(** ** Claims about the description field *)

Lemma descriptionIssues_nonempty (d : string) :
  descriptionIssues d = [] <-> d <> EmptyString.
Proof.
  unfold descriptionIssues. destruct d as [|c d]; simpl.
  - split; [discriminate|intros H; contradiction H; reflexivity].
  - split; [intros _; discriminate|reflexivity].
Qed.

(** C2: at page load the unselected description [""] fails its check
    with [msg_description]; after a successful submission the form holds
    the unselected value ["Select"], which passes it.  A second submission
    that fills only email and phone then depends on the email check alone,
    sends a request, and its contact record has no ["Description"]. *)
Theorem C2_unselected_after_reset_submitted :
  let st1 := exec (onSubmit exampleEnv answerSuccess exampleValues)
                  (set_values exampleValues initialState) in
  let v2 := mkFormValues "a@b.com" "1234567890" (description (form_values st1)) in
  fieldError (descriptionIssues (description defaultValues)) = Some msg_description
  /\ description (form_values st1) = "Select"
  /\ descriptionIssues (description v2) = []
  /\ phoneIssues (phone v2) = []
  /\ (forall email_ok, formValid email_ok v2 = email_ok (email v2))
  /\ requests (exec (onSubmit exampleEnv answerSuccess v2) st1)
     = (requests st1 ++ [submitRequest exampleEnv v2])%list
  /\ contactInfo v2 = [("Contact Email", "a@b.com"); ("Phone", "1234567890")].
Proof.
  cbv zeta. repeat split; try reflexivity.
  intros email_ok. unfold formValid. simpl.
  destruct (email_ok "a@b.com"); reflexivity.
Qed.

(** C4 (counterexample): ["Select"] is not one of the three items of the
    [Select], yet it passes the description check. *)
Lemma C4_non_item_passes :
  ~ (descriptionIssues "Select" = [] <-> In "Select" selectItems).
Proof.
  intros [H _]. specialize (H eq_refl). simpl in H.
  destruct H as [H|[H|[H|[]]]]; discriminate H.
Qed.

(** C4 (amended): the description check passes exactly on the non-empty
    strings; the three [Select] items are among them. *)
Theorem C4_description_passes_iff_nonempty (d : string) :
  (descriptionIssues d = [] <-> String.length d >= 1)
  /\ Forall (fun i => descriptionIssues i = []) selectItems.
Proof.
  split.
  - rewrite descriptionIssues_nonempty. destruct d as [|c d]; simpl.
    + split; [intros H; contradiction H; reflexivity|lia].
    + split; [lia|discriminate].
  - repeat constructor.
Qed.

(* ------------------------------------------------------------------ *)
(** ** Claims about the phone field *)

(** What the claim C3 asks of the stored phone: digits with an optional
    leading ['+']. *)
Definition digits_with_optional_plus (s : string) : bool :=
  match s with
  | String c s' => if Ascii.eqb c "+"%char then all_digits s' else all_digits s
  | EmptyString => true
  end.

Lemma normalizePhone_keep (s : string) :
  re_star_end keep_phone_char (normalizePhone s) = true.
Proof.
  induction s as [|x s IH]; simpl; [reflexivity|].
  destruct (keep_phone_char x) eqn:Hx; simpl; [rewrite Hx|]; exact IH.
Qed.

(** C3 (counterexample): the normaliser keeps hyphens, so the stored value
    of a typed ["(123) 456-7890"] is ["123456-7890"]. *)
Lemma C3_hyphen_kept :
  normalizePhone "(123) 456-7890" = "123456-7890"
  /\ digits_with_optional_plus (normalizePhone "(123) 456-7890") = false.
Proof. split; reflexivity. Qed.

(** C3 (amended): the stored phone consists only of digits, ['+'] and
    ['-'] (at any position): it is exactly the typed characters that are
    digits, ['+'] or ['-'], in their order; every other character, among
    them spaces, parentheses and dots, is removed. *)
Theorem C3_normalized_chars (s : string) :
  re_star_end keep_phone_char (normalizePhone s) = true
  /\ list_ascii_of_string (normalizePhone s)
     = filter keep_phone_char (list_ascii_of_string s)
  /\ map keep_phone_char [" "; "("; ")"; "."; "+"; "-"]%char
     = [false; false; false; false; true; true].
Proof.
  split; [apply normalizePhone_keep|split; [|reflexivity]].
  induction s as [|x s IH]; simpl; [reflexivity|].
  destruct (keep_phone_char x); simpl; [rewrite IH|]; exact IH || reflexivity.
Qed.

Lemma re_opt_skip (x : ascii) (k : string -> bool) (s : string) :
  k s = true -> re_opt x k s = true.
Proof.
  intros H. destruct s; simpl; rewrite H; [reflexivity|apply orb_true_r].
Qed.

Lemma re_upto_skip (n : nat) (p : ascii -> bool) (k : string -> bool) (s : string) :
  k s = true -> re_upto n p k s = true.
Proof.
  intros H. destruct n, s; simpl; rewrite H; try reflexivity; apply orb_true_r.
Qed.

Lemma digits_are_tail_chars (s : string) :
  all_digits s = true -> re_star_end is_tail_char s = true.
Proof.
  unfold all_digits. induction s as [|c s IH]; simpl; [reflexivity|].
  intros H. apply andb_true_iff in H as [Hc Hs].
  rewrite IH by exact Hs. unfold is_tail_char. rewrite Hc.
  rewrite !orb_true_r. reflexivity.
Qed.

(** A non-empty digit string matches the phone regex. *)
Lemma phoneRegex_digits (s : string) :
  all_digits s = true -> s <> EmptyString -> phoneRegex s = true.
Proof.
  intros H Hne. destruct s as [|c s]; [contradiction Hne; reflexivity|].
  unfold all_digits in H; simpl in H. apply andb_true_iff in H as [Hc Hs].
  unfold phoneRegex. apply re_opt_skip, re_opt_skip. unfold re_range1.
  apply andb_true_iff; split; [exact Hc|].
  apply re_upto_skip, re_opt_skip, digits_are_tail_chars, Hs.
Qed.

(** C7: for a digit string shorter than 10 the phone field shows the
    too-short message; for one longer than 15 the too-long message is its
    only issue; the malformed message is a third, distinct one. *)
Theorem C7_phone_length_messages (s : string) :
  all_digits s = true ->
  (String.length s < 10 -> fieldError (phoneIssues s) = Some msg_phone_short)
  /\ (15 < String.length s -> phoneIssues s = [msg_phone_long])
  /\ msg_phone_short <> msg_phone_long /\ msg_phone_short <> msg_phone_invalid
  /\ msg_phone_long <> msg_phone_invalid.
Proof.
  intros Hd. split; [|split; [|split; [discriminate|split; discriminate]]].
  - intros Hl. unfold phoneIssues. apply Nat.ltb_lt in Hl. rewrite Hl. reflexivity.
  - intros Hl. unfold phoneIssues.
    assert (Hs : (String.length s <? 10) = false) by (apply Nat.ltb_ge; lia).
    assert (Hg : (15 <? String.length s) = true) by (apply Nat.ltb_lt; lia).
    rewrite Hs, Hg, phoneRegex_digits; [reflexivity|exact Hd|].
    intros ->. simpl in Hl. lia.
Qed.

Lemma C7_phone_length_messages_witness :
  all_digits "123456789" = true
  /\ fieldError (phoneIssues "123456789") = Some msg_phone_short
  /\ phoneIssues "1234567890123456" = [msg_phone_long].
Proof.
  split; [reflexivity|split].
  - apply (C7_phone_length_messages "123456789"); [reflexivity|].
    simpl. lia.
  - apply (C7_phone_length_messages "1234567890123456"); [reflexivity|].
    simpl. lia.
Defined.

(** C10: the stored value ["123-456-78"] (left as it is by the normaliser)
    has 10 characters but only 8 digits, and passes every phone check. *)
Theorem C10_short_digit_count_passes :
  exists s, normalizePhone s = s /\ String.length s = 10 /\ count_digits s < 10
            /\ phoneIssues s = [].
Proof.
  exists "123-456-78". split; [reflexivity|split; [reflexivity|split]].
  - simpl. lia.
  - reflexivity.
Qed.

(* ------------------------------------------------------------------ *)
(** ** The stub handler of [src/unnamed/part_000] *)

Lemma step_stub_loading (email_ok : string -> bool) (ev : Event) (st : St) :
  loading st = true -> loading (step_stub email_ok ev st) = true.
Proof.
  intros H. destruct ev; simpl; try exact H.
  unfold submit_disabled. rewrite H. exact H.
Qed.

Lemma run_stub_loading (email_ok : string -> bool) (evs : list Event) (st : St) :
  loading st = true -> loading (run_stub email_ok evs st) = true.
Proof.
  revert st. induction evs as [|ev evs IH]; intros st H; simpl; [exact H|].
  apply IH, step_stub_loading, H.
Qed.

(** C9: once the stub [onSubmit] has run, [loading] is true, and no
    sequence of later events (edits, selections, clicks) sets it back to
    false: the submit button stays disabled. *)
Theorem C9_stub_loading_sticks (email_ok : string -> bool) (v : FormValues)
    (st : St) (evs : list Event) :
  let st' := run_stub email_ok evs (exec (onSubmit_stub v) st) in
  loading st' = true /\ submit_disabled st' = true.
Proof.
  cbv zeta. unfold submit_disabled.
  rewrite run_stub_loading; [split; reflexivity|reflexivity].
Qed.

(* ================================================================== *)
(** * Further properties of the code *)

(* ------------------------------------------------------------------ *)
(** ** The phone normaliser *)

(** X1: the normaliser is idempotent, and it commutes with appending:
    typing more characters at the end of a stored value stores the old
    value followed by the normalised new characters. *)
Theorem normalizePhone_idem_app (s t : string) :
  normalizePhone (normalizePhone s) = normalizePhone s
  /\ normalizePhone (s ++ t) = normalizePhone s ++ normalizePhone t.
Proof.
  split; induction s as [|c s IH]; simpl; try reflexivity.
  - destruct (keep_phone_char c) eqn:Hc; simpl; [rewrite Hc, IH; reflexivity|exact IH].
  - destruct (keep_phone_char c); simpl; rewrite IH; reflexivity.
Qed.

(** The characters of a normalised phone: the regex [[+]] tail class
    [[-\s./0-9]] accepts all of them but ['+']. *)
Definition not_plus (c : ascii) : bool := negb (Ascii.eqb c "+"%char).

(** The shape the regex accepts among normalised phones: an optional
    leading ['+'], then a digit, then digits and hyphens. *)
Definition digit_then_no_plus (s : string) : bool :=
  match s with
  | String c s' => is_digit c && re_star_end not_plus s'
  | EmptyString => false
  end.

Definition phone_shape (s : string) : bool :=
  match s with
  | String c s' =>
      if Ascii.eqb c "+"%char then digit_then_no_plus s' else digit_then_no_plus s
  | EmptyString => false
  end.

Lemma keep_char_cases (c : ascii) :
  keep_phone_char c = true ->
  (is_digit c = true /\ c <> "+"%char) \/ c = "+"%char \/ c = "-"%char.
Proof.
  unfold keep_phone_char. intros H.
  destruct (is_digit c) eqn:Hd; simpl in H.
  - left. split; [reflexivity|]. intros ->. discriminate Hd.
  - apply orb_true_iff in H as [H|H]; apply Ascii.eqb_eq in H; subst; auto.
Qed.

Lemma re_opt_other (x : ascii) (k : string -> bool) (s : string) :
  (forall c s', s = String c s' -> Ascii.eqb c x = false) ->
  re_opt x k s = k s.
Proof.
  intros H. destruct s as [|c s']; [reflexivity|]. simpl.
  rewrite (H c s' eq_refl). reflexivity.
Qed.

Lemma keep_not_paren (c : ascii) (x : ascii) :
  keep_phone_char c = true -> (x = "("%char \/ x = ")"%char) -> Ascii.eqb c x = false.
Proof.
  intros Hc Hx. apply Ascii.eqb_neq. intros ->.
  destruct Hx as [->| ->]; discriminate Hc.
Qed.

Lemma tail_on_keep (s : string) :
  re_star_end keep_phone_char s = true ->
  re_star_end is_tail_char s = re_star_end not_plus s.
Proof.
  induction s as [|c s IH]; simpl; [reflexivity|].
  intros H. apply andb_true_iff in H as [Hc Hs]. rewrite IH by exact Hs.
  destruct (keep_char_cases c Hc) as [[Hd Hp]|[->| ->]].
  - unfold is_tail_char, not_plus. rewrite Hd, !orb_true_r.
    apply Ascii.eqb_neq in Hp. rewrite Hp. reflexivity.
  - reflexivity.
  - reflexivity.
Qed.

Lemma close_on_keep (s : string) :
  re_star_end keep_phone_char s = true ->
  re_opt ")"%char (re_star_end is_tail_char) s = re_star_end not_plus s.
Proof.
  intros H. rewrite re_opt_other by
    (intros c s' ->; simpl in H; apply andb_true_iff in H as [Hc _];
     apply (keep_not_paren c); auto).
  apply tail_on_keep, H.
Qed.

Lemma upto_on_keep (n : nat) (s : string) :
  re_star_end keep_phone_char s = true ->
  re_upto n is_digit (re_opt ")"%char (re_star_end is_tail_char)) s
  = re_star_end not_plus s.
Proof.
  revert s. induction n as [|n IH]; intros s H; [apply close_on_keep, H|].
  destruct s as [|c s]; [apply close_on_keep, H|].
  pose proof H as H'. simpl in H'. apply andb_true_iff in H' as [Hc Hs].
  change (re_upto (S n) is_digit ?k (String c s))
    with ((is_digit c && re_upto n is_digit k s) || k (String c s)).
  rewrite IH by exact Hs. rewrite close_on_keep by exact H.
  change (re_star_end not_plus (String c s))
    with (not_plus c && re_star_end not_plus s).
  destruct (is_digit c) eqn:Hd; [|reflexivity].
  assert (Hn : not_plus c = true).
  { unfold not_plus. apply negb_true_iff, Ascii.eqb_neq. intros ->. discriminate Hd. }
  rewrite Hn. destruct (re_star_end not_plus s); reflexivity.
Qed.

(** X2: on the strings the normaliser can store, the phone regex accepts
    exactly an optional leading ['+'] followed by a digit and then digits
    and hyphens only. *)
Theorem phoneRegex_on_normalized (raw : string) :
  phoneRegex (normalizePhone raw) = phone_shape (normalizePhone raw).
Proof.
  pose proof (normalizePhone_keep raw) as H.
  generalize dependent (normalizePhone raw). intros s H.
  assert (HR : forall t, re_star_end keep_phone_char t = true ->
            re_opt "("%char (re_range1 4 is_digit
              (re_opt ")"%char (re_star_end is_tail_char))) t
            = digit_then_no_plus t).
  { intros t Ht. rewrite re_opt_other by
      (intros c s' ->; simpl in Ht; apply andb_true_iff in Ht as [Hc _];
       apply (keep_not_paren c); auto).
    destruct t as [|c t]; [reflexivity|]. simpl in Ht.
    apply andb_true_iff in Ht as [_ Ht]. cbn [re_range1 digit_then_no_plus Nat.sub].
    rewrite upto_on_keep by exact Ht. reflexivity. }
  unfold phoneRegex. destruct s as [|c s]; [reflexivity|].
  pose proof H as H'. simpl in H'. apply andb_true_iff in H' as [Hc Hs].
  change (re_opt "+"%char ?k (String c s))
    with ((Ascii.eqb c "+"%char && k s) || k (String c s)).
  rewrite (HR s Hs), (HR (String c s) H).
  unfold phone_shape. destruct (Ascii.eqb c "+"%char) eqn:E; [|reflexivity].
  apply Ascii.eqb_eq in E. subst c.
  destruct (digit_then_no_plus s); reflexivity.
Qed.

Example phone_shape_samples :
  map (fun s => phoneRegex (normalizePhone s))
      ["+123-456"; "12+34567890"; "-1234567890"; "+-123"; "(0) 805 123 4567"]
  = [true; false; false; false; true].
Proof. reflexivity. Qed.

(** X3: a phone value stored through the input passes phone validation
    exactly when it has 10 to 15 characters and has the shape above: an
    optional leading ['+'], a digit, then digits and hyphens.  A ['+']
    anywhere but first, or a leading hyphen, is rejected as malformed. *)
Theorem phoneIssues_on_normalized (raw : string) :
  let s := normalizePhone raw in
  phoneIssues s = []
  <-> 10 <= String.length s <= 15 /\ phone_shape s = true.
Proof.
  cbv zeta. unfold phoneIssues. rewrite phoneRegex_on_normalized.
  destruct (String.length (normalizePhone raw) <? 10) eqn:E1;
  destruct (15 <? String.length (normalizePhone raw)) eqn:E2;
  destruct (phone_shape (normalizePhone raw)) eqn:E3; simpl;
  apply Nat.ltb_lt in E1 || apply Nat.ltb_ge in E1;
  apply Nat.ltb_lt in E2 || apply Nat.ltb_ge in E2;
  split; intros H; try discriminate H; try (destruct H; lia);
  try discriminate (proj2 H); try (split; [lia|reflexivity]); try reflexivity.
Qed.

(* ------------------------------------------------------------------ *)
(** ** The request of [onSubmit] *)

Fixpoint assoc {V} (k : string) (l : list (string * V)) : option V :=
  match l with
  | [] => None
  | (k', v) :: l' => if String.eqb k k' then Some v else assoc k l'
  end.

(** X5: when [NEXT_PUBLIC_ZOHO_LIST_KEY] is not set, [onSubmit] still
    issues its request, with the query parameter [listkey=undefined]. *)
Theorem listkey_undefined (env : Env) (a : FetchOutcome) (v : FormValues) (st : St) :
  NEXT_PUBLIC_ZOHO_LIST_KEY env = None ->
  exists q, requests (exec (onSubmit env a v) st) = (requests st ++ [q])%list
  /\ assoc "listkey" (req_query q) = Some (QStr "undefined").
Proof.
  intros H. exists (submitRequest env v). split; [apply onSubmit_requests|].
  unfold submitRequest. simpl. rewrite H. reflexivity.
Qed.

Lemma listkey_undefined_witness :
  NEXT_PUBLIC_ZOHO_LIST_KEY (mkEnv None None) = None
  /\ exists q, requests (exec (onSubmit (mkEnv None None) answerSuccess exampleValues)
                              initialState) = [q]
     /\ assoc "listkey" (req_query q) = Some (QStr "undefined").
Proof.
  split; [reflexivity|].
  apply (listkey_undefined (mkEnv None None) answerSuccess exampleValues initialState).
  reflexivity.
Defined.

(* ------------------------------------------------------------------ *)
(** ** Outcomes of [onSubmit] *)

(** The answers [onSubmit] takes the success branch on: an OK status, a
    body that parses as JSON and is not [null], and no [status] equal to
    ['error'].  A primitive JSON body (say [true]) has no [status]. *)
Definition accepted (a : FetchOutcome) : bool :=
  match a with
  | FetchResolved r =>
      ok r && match json r with
              | JsonOk JNull | JsonSyntaxError _ => false
              | JsonOk JPrim => true
              | JsonOk (JObj s _) => negb (is_error_status s)
              end
  | FetchRejected _ => false
  end.

(** X6: every run of [onSubmit] ends in one of two ways.  On an accepted
    answer it shows the success message, resets the form to
    [resetValues] and raises no alert; on any other answer (rejected
    fetch, non-OK status, body that is not JSON or is [null], or
    [status: 'error']) it raises exactly one alert starting with
    ["Subscription failed: "] and changes neither the fields nor
    [showSuccess]. *)
Theorem onSubmit_outcomes (env : Env) (a : FetchOutcome) (v : FormValues) (st : St) :
  let st' := exec (onSubmit env a v) st in
  if accepted a then
    showSuccess st' = true /\ form_values st' = resetValues /\ alerts st' = alerts st
  else
    showSuccess st' = showSuccess st /\ form_values st' = form_values st
    /\ exists m, alerts st' = (alerts st ++ [("Subscription failed: " ++ m)%string])%list.
Proof.
  cbv zeta.
  destruct a as [e|[okr [b|jm]]].
  - simpl. repeat split; try reflexivity. eexists; reflexivity.
  - destruct okr, b as [| |s m]; simpl accepted; cbv iota;
      try (repeat split; try reflexivity; eexists; reflexivity).
    destruct s as [s|]; [|repeat split; reflexivity].
    unfold is_error_status. destruct (String.eqb s "error") eqn:E; simpl negb; cbv iota.
    + apply String.eqb_eq in E. subst s.
      repeat split; try reflexivity. eexists; reflexivity.
    + unfold exec, onSubmit, try_catch_finally, bind; simpl.
      unfold is_error_status. rewrite E. repeat split; reflexivity.
  - destruct okr; simpl; repeat split; try reflexivity; eexists; reflexivity.
Qed.

(** X7: the text of the alert.  For a resolved answer whose body is an
    object, a non-OK status or [status: 'error'] gives
    ["Subscription failed: " + message], with ["Subscription failed"] in
    place of a missing or empty [message]; a rejected [fetch] gives
    ["Subscription failed: " + reason]. *)
Theorem onSubmit_alert_text (env : Env) (v : FormValues) (st : St)
    (okr : bool) (s m : option string) (e : string) :
  alerts (exec (onSubmit env (FetchResolved (mkResponse okr (JsonOk (JObj s m)))) v) st)
  = (if negb okr || is_error_status s
     then alerts st ++ [("Subscription failed: " ++ or_default m)%string]
     else alerts st)%list
  /\ alerts (exec (onSubmit env (FetchRejected e) v) st)
     = (alerts st ++ [("Subscription failed: " ++ e)%string])%list.
Proof.
  split; [|reflexivity].
  unfold exec, onSubmit, try_catch_finally, bind; simpl.
  destruct okr; simpl; [|reflexivity].
  destruct (is_error_status s); reflexivity.
Qed.
